(** * fake_review/app.py: the review credibility scorer

    A shallow embedding of [src/fake_review/app.py].

    - Python [int] is [Z]; Python [float] is the IEEE-754 binary64 of
      [PrimFloat]; the [analysis] dict is a record.
    - A [str] is a [string] of which every character is one code point
      (0 to 255, so ASCII and the Latin-1 supplement; a character above 127
      is written by its number, as in ["160"%char], not as UTF-8 bytes).
      [str.lower] and [str.isspace] are modelled on all of these.
    - The table [reviews] is the list of its rows in insertion order; a
      rowid is a signed 64-bit integer, and the one SQLite picks at random
      when the largest is in use is an input of the model.  A
      [DATETIME] cell holds a text of the one shape ['YYYY-MM-DD HH:MM:SS'];
      it is represented by the number of seconds it denotes, and two such
      texts compare bytewise in the order of those numbers.
    - What a call reads from outside the program is an argument of its model:
      the VADER analyzer, the clock readings, and whether sqlite3 raises.
    - An uncaught Python exception is the [Raised] outcome of a small
      state-and-exception monad over the table.
    - A request carries both form fields, so [user_id] and [review_text]
      are strings. *)

From Stdlib Require Import ZArith List String Ascii Bool Lia.
From Stdlib Require Import Floats.PrimFloat.
From Stdlib Require Import Floats.SpecFloat Floats.FloatOps Floats.FloatAxioms.
Import ListNotations.

Local Open Scope string_scope.
Local Open Scope Z_scope.

(* Python reads the literal 0.8 as the nearest binary64, and so does Rocq. *)
#[local] Set Warnings "-inexact-float".

(** ** The [str] methods that [analyze_text] calls *)

Module PyStr.

(** [str.lower] on one code point below 256: the upper-case letters are
    A-Z (65-90) and, in the Latin-1 supplement, 192-214 and 216-222 (215 is
    the multiplication sign); each moves 32 up to its lower-case letter. *)
Definition lower_char (c : ascii) : ascii :=
  let n := nat_of_ascii c in
  if (((65 <=? n)%nat && (n <=? 90)%nat)
      || ((192 <=? n)%nat && (n <=? 214)%nat)
      || ((216 <=? n)%nat && (n <=? 222)%nat))%bool
  then ascii_of_nat (n + 32) else c.

Fixpoint lower (s : string) : string :=
  match s with
  | EmptyString => EmptyString
  | String c s' => String (lower_char c) (lower s')
  end.

(** The code points below 256 for which [str.isspace] holds, which are the
    ones [str.split()] cuts at: tab, line feed, vertical tab, form feed,
    carriage return (9-13), the four separators 28-31, the space (32), the
    next-line control (133, U+0085) and the no-break space (160, U+00A0). *)
Definition isspace (c : ascii) : bool :=
  let n := nat_of_ascii c in
  (((9 <=? n)%nat && (n <=? 13)%nat) || ((28 <=? n)%nat && (n <=? 32)%nat)
   || (n =? 133)%nat || (n =? 160)%nat)%bool.

(** [s.startswith(sub)]. *)
Fixpoint startswith (sub s : string) : bool :=
  match sub, s with
  | EmptyString, _ => true
  | String _ _, EmptyString => false
  | String a sub', String b s' => (Ascii.eqb a b && startswith sub' s')%bool
  end.

(** The scan of [s.count(sub)] for a non-empty [sub]: occurrences are taken
    from the left and do not overlap, so after a match the next
    [len(sub) - 1] positions are stepped over ([skip]). *)
Fixpoint count_scan (sub s : string) (skip : nat) : nat :=
  match s with
  | EmptyString => 0
  | String _ s' =>
      match skip with
      | S k => count_scan sub s' k
      | O =>
          if startswith sub s
          then S (count_scan sub s' (String.length sub - 1))
          else count_scan sub s' 0
      end
  end.

(** [s.count(sub)]; the empty [sub] is found between all characters. *)
Definition count (s sub : string) : Z :=
  match sub with
  | EmptyString => Z.of_nat (String.length s) + 1
  | String _ _ => Z.of_nat (count_scan sub s 0)
  end.

(** [s.split()] without arguments: the maximal runs of non-space
    characters, in order.  [word] is the run being read. *)
Fixpoint split_run (word s : string) : list string :=
  match s with
  | EmptyString =>
      match word with EmptyString => [] | String _ _ => [word] end
  | String c s' =>
      if isspace c
      then match word with
           | EmptyString => split_run EmptyString s'
           | String _ _ => word :: split_run EmptyString s'
           end
      else split_run (word ++ String c EmptyString) s'
  end.

Definition split (s : string) : list string := split_run EmptyString s.

End PyStr.

(** ** [analyze_text] *)

(** The [analysis] dict: its five keys. *)
Record TextAnalysis : Type := mkTextAnalysis {
  generic_phrase_count : Z;
  exclamation_count : Z;
  word_count : Z;
  sentiment : float;
  credibility_score : Z
}.

Definition generic_keywords : list string :=
  ["best product ever"; "highly recommend"; "excellent"; "love it"].

Module builtins.

(** [sum] over a generator of [int]: the items are added to 0 in order. *)
Definition sum (l : list Z) : Z := fold_left Z.add l 0.

End builtins.

(** Step 5 of [analyze_text] (lines 59-70): the score of the four signals.
    Each [if] rebinds [score], as the statements [score -= ...] do. *)
Definition score_signals (generic_count exclam_count word_count : Z)
    (compound : float) : Z :=
  let score := 10 in
  let score := if generic_count >? 0 then score - generic_count else score in
  let score := if exclam_count >? 2 then score - (exclam_count - 2) else score in
  let score := if word_count <? 5 then score - 3 else score in
  let score := if (0.8 <? abs compound)%float then score - 2 else score in
  Z.max score 1.

Section Analyzer.

(** [sia.polarity_scores(text)['compound']] of NLTK's VADER analyzer. *)
Variable sia_compound : string -> float.

Definition analyze_text (review_text : string) : TextAnalysis :=
  let generic_count :=
    builtins.sum
      (map (fun phrase => PyStr.count (PyStr.lower review_text) phrase)
           generic_keywords) in
  let exclam_count := PyStr.count review_text "!" in
  let word_count := Z.of_nat (List.length (PyStr.split review_text)) in
  let compound := sia_compound review_text in
  {| generic_phrase_count := generic_count;
     exclamation_count := exclam_count;
     word_count := word_count;
     sentiment := compound;
     credibility_score :=
       score_signals generic_count exclam_count word_count compound |}.

End Analyzer.

(** ** The sqlite3 table [reviews] *)

Module Reviews.

(** One row: the four columns of the [CREATE TABLE] (lines 19-24). *)
Record row : Type := mkRow {
  id : Z;
  user_id : string;
  review_text : string;
  timestamp : Z
}.

End Reviews.

Definition Table : Type := list Reviews.row.

(** ** Exceptions and the table as state *)

Inductive Exception : Type :=
| sqlite3_Error (message : string).

Inductive outcome (A : Type) : Type :=
| Returned (a : A)
| Raised (e : Exception).

Arguments Returned {A} a.
Arguments Raised {A} e.

(** A computation over the table that returns a value and the table it
    leaves, or raises.  No function of the source has a [try], so [bind]
    is the only way two steps are put together. *)
Definition Db (A : Type) : Type := Table -> outcome (A * Table).

Definition ret {A : Type} (a : A) : Db A := fun table => Returned (a, table).

Definition bind {A B : Type} (m : Db A) (k : A -> Db B) : Db B :=
  fun table =>
    match m table with
    | Returned (a, table') => k a table'
    | Raised e => Raised e
    end.

Notation "x <- m ;; k" := (bind m (fun x => k))
  (at level 61, m at next level, right associativity).

(** ** The clock of the host *)

(** One instant as the host sees it: whole seconds and microseconds of UTC,
    and the offset of the local zone from UTC in seconds. *)
Record Clock : Type := mkClock {
  utc_seconds : Z;
  utc_microsecond : Z;
  utcoffset : Z
}.

(** SQLite's [CURRENT_TIMESTAMP] (line 23): the UTC date and time, to the
    second. *)
Definition CURRENT_TIMESTAMP (clock : Clock) : Z := utc_seconds clock.

Module datetime.

(** A naive [datetime.datetime]: seconds on its own time line and the
    microsecond field. *)
Record t : Type := mk { seconds : Z; microsecond : Z }.

(** [datetime.datetime.now()]: the local date and time, without a zone. *)
Definition now (clock : Clock) : t :=
  {| seconds := utc_seconds clock + utcoffset clock;
     microsecond := utc_microsecond clock |}.

(** [datetime.timedelta(hours=h)], in seconds. *)
Definition timedelta (hours : Z) : Z := hours * 3600.

(** [d - delta]. *)
Definition sub (d : t) (delta : Z) : t :=
  {| seconds := seconds d - delta; microsecond := microsecond d |}.

(** [d.strftime('%Y-%m-%d %H:%M:%S')]: the microseconds are dropped. *)
Definition strftime (d : t) : Z := seconds d.

End datetime.

(** ** The two statements the program runs *)

(** The largest rowid of SQLite, 2^63 - 1. *)
Definition max_rowid : Z := 9223372036854775807.

Section Store.

(** The rowid SQLite settles on when it has to pick one at random (the
    largest rowid is in use): a positive one that no row has. *)
Variable random_rowid : Table -> Z.

(** The rowid of a row inserted without a value for its
    [INTEGER PRIMARY KEY] (line 20): 1 in an empty table, otherwise one more
    than the largest rowid in use, negative or not, and a random unused one
    when the largest is [max_rowid]. *)
Definition next_id (table : Table) : Z :=
  match table with
  | [] => 1
  | r :: rest =>
      let largest :=
        fold_right (fun r m => Z.max (Reviews.id r) m) (Reviews.id r) rest in
      if largest =? max_rowid then random_rowid table else largest + 1
  end.

(** The row that [INSERT INTO reviews (user_id, review_text)] adds: the two
    columns left out take the next id and [CURRENT_TIMESTAMP]. *)
Definition stored_row (clock : Clock) (user_id review_text : string)
    (table : Table) : Reviews.row :=
  Reviews.mkRow (next_id table) user_id review_text
                (CURRENT_TIMESTAMP clock).

(** Lines 108-112: connect, insert, commit, close.  [fault] is the exception
    one of these sqlite3 calls raises, if any. *)
Definition insert_review (fault : option Exception) (clock : Clock)
    (user_id review_text : string) : Db unit :=
  fun table =>
    match fault with
    | Some e => Raised e
    | None =>
        Returned (tt, (table ++ [stored_row clock user_id review_text table])%list)
    end.

(** Lines 79-88 without the clock: connect,
    [SELECT COUNT( * ) FROM reviews WHERE user_id=? AND timestamp>=?],
    fetch, close. *)
Definition count_reviews (fault : option Exception) (user_id : string)
    (time_str : Z) : Db Z :=
  fun table =>
    match fault with
    | Some e => Raised e
    | None =>
        Returned
          (Z.of_nat
             (List.length
                (filter (fun r => (String.eqb (Reviews.user_id r) user_id
                                   && (Reviews.timestamp r >=? time_str))%bool)
                        table)),
           table)
    end.

(** ** [analyze_user], [is_fake], [submit_review] *)

Definition analyze_user (fault : option Exception) (clock : Clock)
    (user_id : string) : Db Z :=
  let penalty := 0 in
  let one_hour_ago := datetime.sub (datetime.now clock) (datetime.timedelta 1) in
  let time_str := datetime.strftime one_hour_ago in
  count <- count_reviews fault user_id time_str ;;
  let penalty := if count >? 5 then count - 5 else penalty in
  ret penalty.

(** [threshold] is [None] when the caller leaves the argument out. *)
Definition is_fake (credibility_score : Z) (threshold : option Z) : bool :=
  let threshold := match threshold with Some t => t | None => 6 end in
  credibility_score <? threshold.

(** Lines 120-121: the text score less the user penalty, not below 1. *)
Definition combine_scores (credibility_score user_penalty : Z) : Z :=
  let overall_score := credibility_score - user_penalty in
  Z.max overall_score 1.

(** The keyword arguments of the final [render_template]. *)
Record Rendered : Type := mkRendered {
  analysis : TextAnalysis;
  user_penalty : Z;
  overall_score : Z;
  verdict : bool
}.

(** What one request reads from outside: for the [INSERT] and for the
    [SELECT], whether sqlite3 raises and the clock at that moment. *)
Record Request : Type := mkRequest {
  insert_fault : option Exception;
  insert_clock : Clock;
  select_fault : option Exception;
  select_clock : Clock
}.

Section Pipeline.

Variable sia_compound : string -> float.

Definition submit_review (req : Request) (user_id review_text : string)
    : Db Rendered :=
  _ <- insert_review (insert_fault req) (insert_clock req) user_id review_text ;;
  let text_analysis := analyze_text sia_compound review_text in
  user_penalty <- analyze_user (select_fault req) (select_clock req) user_id ;;
  let overall_score :=
    combine_scores (credibility_score text_analysis) user_penalty in
  let verdict := is_fake overall_score None in
  ret {| analysis := text_analysis;
         user_penalty := user_penalty;
         overall_score := overall_score;
         verdict := verdict |}.

End Pipeline.

(** ** Inputs of the scenarios *)

Definition scenario_A : string := "Excellent! Excellent! Love it!!!".

(** A row is counted for [user_id] since [since] when it is by exactly that
    user and its timestamp is not before [since]. *)
Definition counted (user_id : string) (since : Z) (r : Reviews.row) : Prop :=
  Reviews.user_id r = user_id /\ since <= Reviews.timestamp r.

Definition counted_dec (user_id : string) (since : Z) (r : Reviews.row)
  : {counted user_id since r} + {~ counted user_id since r}.
Proof.
  unfold counted.
  destruct (string_dec (Reviews.user_id r) user_id) as [Hu | Hu];
    [destruct (Z_le_dec since (Reviews.timestamp r)) as [Ht | Ht] |];
    [left | right | right]; tauto.
Defined.

(** The number of rows of [table] counted for [user_id] since [since]. *)
Definition count_since (user_id : string) (since : Z) (table : Table) : Z :=
  Z.of_nat
    (List.length
       (filter (fun r => if counted_dec user_id since r then true else false)
               table)).

(** 2024-06-01 10:00:00 UTC on a host whose local zone is UTC: the local
    time is 10:00:00. *)
Definition utc_host_10h : Clock :=
  {| utc_seconds := 1717236000; utc_microsecond := 0; utcoffset := 0 |}.

(** The same instant on a host whose local zone is UTC+05:30: the local
    time is 15:30:00. *)
Definition ist_host_10h : Clock :=
  {| utc_seconds := 1717236000; utc_microsecond := 0; utcoffset := 19800 |}.

(** [n] reviews of [user_id], all stored at the UTC second [stamp]. *)
Definition reviews_by (user_id : string) (stamp : Z) (n : nat) : Table :=
  map (fun k => Reviews.mkRow (Z.of_nat k) user_id "ok" stamp) (seq 1 n).

(** ** Notions the properties of the extractor are stated with *)

(** The characters of [s] that are not whitespace, in order. *)
Fixpoint without_space (s : string) : string :=
  match s with
  | EmptyString => EmptyString
  | String c s' =>
      if PyStr.isspace c then without_space s' else String c (without_space s')
  end.

(** Whether [s] has no whitespace character. *)
Fixpoint no_space (s : string) : bool :=
  match s with
  | EmptyString => true
  | String c s' => (negb (PyStr.isspace c) && no_space s')%bool
  end.

(** Whether [s] has only whitespace characters. *)
Fixpoint only_space (s : string) : bool :=
  match s with
  | EmptyString => true
  | String c s' => (PyStr.isspace c && only_space s')%bool
  end.

(** The words of [l] written one after the other. *)
Definition join (l : list string) : string := fold_right append EmptyString l.

(** How many characters of [s] are [c]. *)
Fixpoint char_count (c : ascii) (s : string) : nat :=
  match s with
  | EmptyString => O
  | String a s' => ((if Ascii.eqb a c then 1 else 0) + char_count c s')%nat
  end.

(** [sub] is found somewhere in [s]. *)
Definition occurs (sub s : string) : Prop :=
  exists before after : string, s = before ++ sub ++ after.

(** The rows of [table] that are by [user_id]. *)
Definition rows_by (user_id : string) (table : Table) : Table :=
  filter (fun r => String.eqb (Reviews.user_id r) user_id) table.

(** * Properties *)

(** ** Signals of the extractor *)

Lemma count_nonneg (s sub : string) : 0 <= PyStr.count s sub.
Proof. unfold PyStr.count. destruct sub; lia. Qed.

Lemma fold_add_nonneg (l : list Z) :
  Forall (fun z => 0 <= z) l -> forall acc, 0 <= acc -> 0 <= fold_left Z.add l acc.
Proof.
  induction 1 as [| z l Hz _ IH]; intros acc Hacc; simpl.
  - exact Hacc.
  - apply IH. lia.
Qed.

Lemma generic_count_nonneg (s : string) :
  0 <= builtins.sum (map (fun phrase => PyStr.count s phrase) generic_keywords).
Proof.
  unfold builtins.sum. apply fold_add_nonneg; [| lia].
  apply Forall_forall. intros z Hz.
  apply in_map_iff in Hz. destruct Hz as [phrase [<- _]].
  apply count_nonneg.
Qed.

(** ** The score of the signals *)

(** C1: for every signal tuple (so for the ones with counts >= 0 and a
    sentiment in [-1, 1]) the score is 10 less generic_phrase_count when that
    is > 0, less exclamation_count - 2 when exclamation_count > 2, less 3
    when word_count < 5, less 2 when |sentiment| > 0.8, raised to 1 when
    below and never cut from above; it lies in [1, 10].  The
    credibility_score of [analyze_text] is this score of the signals it
    returns, and those counts are never negative. *)
Theorem credibility_scorer_formula :
  (forall (g e w : Z) (s : float),
      score_signals g e w s =
        Z.max (10 - (if 0 <? g then g else 0)
                  - (if 2 <? e then e - 2 else 0)
                  - (if w <? 5 then 3 else 0)
                  - (if (0.8 <? abs s)%float then 2 else 0)) 1
      /\ 1 <= score_signals g e w s <= 10)
  /\ (forall (sia : string -> float) (text : string),
        let a := analyze_text sia text in
        credibility_score a =
          score_signals (generic_phrase_count a) (exclamation_count a)
                        (word_count a) (sentiment a)
        /\ 0 <= generic_phrase_count a
        /\ 0 <= exclamation_count a
        /\ 0 <= word_count a).
Proof.
  split.
  - intros g e w s. unfold score_signals. rewrite !Z.gtb_ltb.
    destruct (Z.ltb_spec 0 g), (Z.ltb_spec 2 e), (w <? 5), (0.8 <? abs s)%float;
      split; lia.
  - intros sia text a. subst a. cbn [analyze_text credibility_score
      generic_phrase_count exclamation_count word_count sentiment].
    repeat split.
    + apply generic_count_nonneg.
    + apply count_nonneg.
    + lia.
Qed.

(** ** The verdict *)

(** C2: is_fake is true exactly when the score is strictly below the
    threshold, which is 6 when the caller gives none; 6 is not fake, 5 is. *)
Theorem is_fake_strict_threshold :
  (forall score threshold : Z,
      is_fake score (Some threshold) = true <-> score < threshold)
  /\ (forall score : Z, is_fake score None = true <-> score < 6)
  /\ is_fake 6 None = false
  /\ is_fake 5 None = true.
Proof.
  unfold is_fake. repeat split; try apply Z.ltb_lt; intros H; apply Z.ltb_lt; exact H.
Qed.

(** C10: for a credibility_score c >= 1 and a penalty p >= 0 the overall
    score max(c - p, 1) is at most c, and a larger penalty never gives a
    larger overall score. *)
Theorem combine_scores_bounded_antitone (c p : Z) :
  1 <= c -> 0 <= p ->
  combine_scores c p <= c
  /\ (forall p' : Z, p <= p' -> combine_scores c p' <= combine_scores c p).
Proof.
  unfold combine_scores. intros Hc Hp. split; [| intros p' Hpp']; lia.
Qed.

Lemma combine_scores_bounded_antitone_witness :
  (1 <= 7 /\ 0 <= 2)
  /\ combine_scores 7 2 <= 7
  /\ (forall p' : Z, 2 <= p' -> combine_scores 7 p' <= combine_scores 7 2).
Proof.
  split; [lia |].
  apply (combine_scores_bounded_antitone 7 2); lia.
Defined.

(** ** The two scenarios of the extractor *)

(** C6, as the code has it: the text "Excellent! Excellent! Love it!!!" has
    generic_phrase_count 3 ("excellent" twice, "love it" once),
    exclamation_count 5 and word_count 4, and its credibility_score is 1
    for every sentiment value (10 - 3 - 3 - 3 = 1, or -1 with the sentiment
    penalty, raised to 1). *)
Theorem scenario_A_analysis (sia : string -> float) :
  let a := analyze_text sia scenario_A in
  generic_phrase_count a = 3
  /\ exclamation_count a = 5
  /\ word_count a = 4
  /\ credibility_score a = 1.
Proof.
  repeat split; try reflexivity.
  cbn [analyze_text credibility_score].
  change (score_signals 3 5 4 (sia scenario_A) = 1).
  unfold score_signals.
  destruct (0.8 <? abs (sia scenario_A))%float; reflexivity.
Qed.

(** C6, as the claim has it (counts 2, 4, 4 and score 3), holds for no
    sentiment analyzer. *)
Lemma scenario_A_not_2_4_4_3 :
  ~ (exists sia : string -> float,
        let a := analyze_text sia scenario_A in
        generic_phrase_count a = 2
        /\ exclamation_count a = 4
        /\ word_count a = 4
        /\ credibility_score a = 3).
Proof.
  intros [sia [Hgeneric _]].
  vm_compute in Hgeneric. discriminate Hgeneric.
Qed.

(** C9: on the empty text the extractor gives word_count 0,
    exclamation_count 0 and generic_phrase_count 0, and when the analyzer's
    sentiment for it is near neutral (not beyond 0.8 in magnitude) the
    credibility_score is 7. *)
Theorem empty_text_analysis (sia : string -> float) :
  (0.8 <? abs (sia ""))%float = false ->
  analyze_text sia "" =
    {| generic_phrase_count := 0;
       exclamation_count := 0;
       word_count := 0;
       sentiment := sia "";
       credibility_score := 7 |}.
Proof.
  intros Hneutral.
  unfold analyze_text. f_equal.
  change (score_signals 0 0 0 (sia "") = 7).
  unfold score_signals. rewrite Hneutral. reflexivity.
Qed.

Lemma empty_text_analysis_witness :
  (0.8 <? abs ((fun _ : string => 0%float) ""))%float = false
  /\ analyze_text (fun _ => 0%float) "" =
       {| generic_phrase_count := 0;
          exclamation_count := 0;
          word_count := 0;
          sentiment := 0%float;
          credibility_score := 7 |}.
Proof.
  split; [reflexivity |].
  apply (empty_text_analysis (fun _ => 0%float)). reflexivity.
Defined.

(** ** The frequency query *)

(** The [WHERE] clause of the query and [counted] agree on every row. *)
Lemma where_clause_counted (user_id : string) (since : Z) (r : Reviews.row) :
  (String.eqb (Reviews.user_id r) user_id && (Reviews.timestamp r >=? since))%bool
  = (if counted_dec user_id since r then true else false).
Proof.
  destruct (counted_dec user_id since r) as [[Hu Ht] | Hno].
  - apply andb_true_iff. split.
    + apply String.eqb_eq. exact Hu.
    + rewrite Z.geb_leb. apply Z.leb_le. exact Ht.
  - apply not_true_is_false. intros H.
    apply andb_true_iff in H. destruct H as [Hu Ht].
    apply Hno. split.
    + apply String.eqb_eq. exact Hu.
    + rewrite Z.geb_leb in Ht. apply Z.leb_le. exact Ht.
Qed.

Lemma count_reviews_count_since (user_id : string) (since : Z) (table : Table) :
  count_reviews None user_id since table
  = Returned (count_since user_id since table, table).
Proof.
  unfold count_reviews, count_since. do 4 f_equal.
  apply filter_ext. intros r. apply where_clause_counted.
Qed.

Lemma count_since_app (user_id : string) (since : Z) (t1 t2 : Table) :
  count_since user_id since (t1 ++ t2)%list
  = count_since user_id since t1 + count_since user_id since t2.
Proof.
  unfold count_since. rewrite filter_app, length_app. lia.
Qed.

Lemma analyze_user_count_since (clock : Clock) (user_id : string) (table : Table) :
  analyze_user None clock user_id table =
    let count :=
      count_since user_id (utc_seconds clock + utcoffset clock - 3600) table in
    Returned ((if count >? 5 then count - 5 else 0), table).
Proof.
  unfold analyze_user, bind. rewrite count_reviews_count_since.
  cbn [datetime.strftime datetime.sub datetime.now datetime.seconds
       datetime.timedelta].
  replace (1 * 3600) with 3600 by reflexivity.
  reflexivity.
Qed.

(** The count and the penalty in terms of the bound the code computes: the
    local wall clock, read to the second, less 3600. *)
Lemma analyze_user_window_penalty :
  forall (clock : Clock) (user_id : string) (table : Table),
    let now := datetime.now clock in
    let count := count_since user_id (datetime.seconds now - 3600) table in
    analyze_user None clock user_id table
      = Returned ((if 5 <? count then count - 5 else 0), table)
    /\ (count = 5 -> analyze_user None clock user_id table = Returned (0, table))
    /\ (count = 6 -> analyze_user None clock user_id table = Returned (1, table)).
Proof.
  intros clock user_id table now count.
  rewrite analyze_user_count_since.
  cbn zeta. fold now. change (datetime.seconds now)
    with (utc_seconds clock + utcoffset clock) in count.
  fold count. rewrite Z.gtb_ltb.
  repeat split.
  - intros ->. reflexivity.
  - intros ->. reflexivity.
Qed.

(** C3 on a host whose local zone is UTC+05:30, at 10:00:00 UTC: the table
    holds six reviews by "u", all stored 100 seconds earlier, so all six are
    reviews by that user_id with a timestamp >= now less one hour; the
    penalty should be 1.  analyze_user compares their UTC timestamps with
    the local 15:30:00 less one hour, counts none of them and returns 0.
    On a host on UTC the same table at the same instant gives 1. *)
Theorem analyze_user_misses_trailing_hour_on_ist_host :
  let table := reviews_by "u" 1717235900 6 in
  let now_utc := utc_seconds ist_host_10h in
  Forall (fun r => Reviews.user_id r = "u"
                   /\ now_utc - 3600 <= Reviews.timestamp r <= now_utc) table
  /\ List.length table = 6%nat
  /\ count_since "u" (now_utc - 3600) table = 6
  /\ count_reviews None "u"
       (datetime.strftime
          (datetime.sub (datetime.now ist_host_10h) (datetime.timedelta 1)))
       table = Returned (0, table)
  /\ analyze_user None ist_host_10h "u" table = Returned (0, table)
  /\ analyze_user None utc_host_10h "u" table = Returned (1, table).
Proof.
  cbn zeta. split.
  - unfold reviews_by. cbn [seq map].
    repeat (constructor; [cbn; split; [reflexivity | lia] |]). constructor.
  - repeat split; reflexivity.
Qed.

(** The window on a small table: the bound itself is counted, one second
    earlier is not, and neither is another user or another spelling. *)
Example analyze_user_window_edges :
  let table :=
    [ Reviews.mkRow 1 "u" "a" (1717236000 - 3600);
      Reviews.mkRow 2 "u" "b" (1717236000 - 3601);
      Reviews.mkRow 3 "U" "c" 1717236000;
      Reviews.mkRow 4 "v" "d" 1717236000;
      Reviews.mkRow 5 "u" "e" 1717236000 ] in
  count_reviews None "u" (1717236000 - 3600) table = Returned (2, table)
  /\ analyze_user None utc_host_10h "u" table = Returned (0, table).
Proof. split; reflexivity. Qed.

(** Five reviews in the window give no penalty, six give 1, seven give 2. *)
Example analyze_user_five_six_seven :
  analyze_user None utc_host_10h "u" (reviews_by "u" 1717235900 5)
    = Returned (0, reviews_by "u" 1717235900 5)
  /\ analyze_user None utc_host_10h "u" (reviews_by "u" 1717235900 6)
    = Returned (1, reviews_by "u" 1717235900 6)
  /\ analyze_user None utc_host_10h "u" (reviews_by "u" 1717235900 7)
    = Returned (2, reviews_by "u" 1717235900 7).
Proof. repeat split; reflexivity. Qed.

(** ** The pipeline *)

(** A submission during which sqlite3 does not raise returns, and this is
    what it renders and the table it leaves. *)
Lemma submit_review_returned (sia : string -> float) (c1 c2 : Clock)
    (user_id review_text : string) (table : Table) :
  submit_review sia (mkRequest None c1 None c2) user_id review_text table =
    let table' := (table ++ [stored_row c1 user_id review_text table])%list in
    let a := analyze_text sia review_text in
    let count :=
      count_since user_id (utc_seconds c2 + utcoffset c2 - 3600) table' in
    let p := if count >? 5 then count - 5 else 0 in
    Returned ({| analysis := a;
                 user_penalty := p;
                 overall_score := combine_scores (credibility_score a) p;
                 verdict := is_fake (combine_scores (credibility_score a) p) None |},
              table').
Proof.
  unfold submit_review. unfold bind at 1.
  cbn [insert_fault insert_clock select_fault select_clock insert_review].
  unfold bind at 1. rewrite analyze_user_count_since. reflexivity.
Qed.

(** What a submission that returns has rendered. *)
Lemma submit_review_inv (sia : string -> float) (req : Request)
    (user_id review_text : string) (table table' : Table) (r : Rendered) :
  submit_review sia req user_id review_text table = Returned (r, table') ->
  insert_fault req = None
  /\ select_fault req = None
  /\ analysis r = analyze_text sia review_text
  /\ overall_score r = combine_scores (credibility_score (analysis r)) (user_penalty r)
  /\ verdict r = is_fake (overall_score r) None.
Proof.
  destruct req as [f1 c1 f2 c2].
  destruct f1 as [e1 |]; [discriminate |].
  destruct f2 as [e2 |]; [discriminate |].
  rewrite submit_review_returned. cbn zeta.
  intros H. injection H as <- _. cbn. repeat split.
Qed.

(** C4: the overall score is max(credibility_score - user_penalty, 1), for
    every pair of inputs (so for a score in [1, 10] and a penalty >= 0), and
    this is the overall_score every submission renders next to the
    credibility_score and the user_penalty it renders. *)
Theorem overall_score_is_clamped_difference :
  (forall c p : Z, combine_scores c p = Z.max (c - p) 1)
  /\ (forall (sia : string -> float) (c1 c2 : Clock)
             (user_id review_text : string) (table : Table),
        exists (r : Rendered) (table' : Table),
          submit_review sia (mkRequest None c1 None c2) user_id review_text table
            = Returned (r, table')
          /\ overall_score r
             = Z.max (credibility_score (analysis r) - user_penalty r) 1
          /\ verdict r = is_fake (overall_score r) None).
Proof.
  split.
  - intros c p. reflexivity.
  - intros sia c1 c2 user_id review_text table.
    rewrite submit_review_returned. cbn zeta.
    eexists. eexists. split; [reflexivity |]. cbn. split; reflexivity.
Qed.

Lemma score_signals_ge_1 (g e w : Z) (s : float) : 1 <= score_signals g e w s.
Proof. unfold score_signals. apply Z.le_max_r. Qed.

Lemma combine_scores_ge_1 (c p : Z) : 1 <= combine_scores c p.
Proof. unfold combine_scores. apply Z.le_max_r. Qed.

(** C5: the credibility_score and the overall_score are >= 1 whatever the
    signals, the text, the penalty, the table and the clocks are: both as
    the scorer and the aggregator compute them and as every submission
    renders them (a submission returns when sqlite3 does not raise). *)
Theorem scores_never_below_one :
  (forall (g e w : Z) (s : float), 1 <= score_signals g e w s)
  /\ (forall (sia : string -> float) (text : string),
        1 <= credibility_score (analyze_text sia text))
  /\ (forall c p : Z, 1 <= combine_scores c p)
  /\ (forall (sia : string -> float) (c1 c2 : Clock)
             (user_id review_text : string) (table : Table),
        exists (r : Rendered) (table' : Table),
          submit_review sia (mkRequest None c1 None c2) user_id review_text table
            = Returned (r, table')
          /\ 1 <= credibility_score (analysis r)
          /\ 1 <= overall_score r)
  /\ (forall (sia : string -> float) (req : Request)
             (user_id review_text : string) (table table' : Table) (r : Rendered),
        submit_review sia req user_id review_text table = Returned (r, table') ->
        1 <= credibility_score (analysis r) /\ 1 <= overall_score r).
Proof.
  repeat apply conj.
  - apply score_signals_ge_1.
  - intros sia text. apply score_signals_ge_1.
  - apply combine_scores_ge_1.
  - intros sia c1 c2 user_id review_text table.
    rewrite submit_review_returned. cbn zeta.
    eexists. eexists. split; [reflexivity |]. cbn.
    split; [apply score_signals_ge_1 | apply combine_scores_ge_1].
  - intros sia req user_id review_text table table' r H.
    apply submit_review_inv in H.
    destruct H as (_ & _ & Ha & Ho & _).
    rewrite Ho, Ha. split; [apply score_signals_ge_1 | apply combine_scores_ge_1].
Qed.

(** ** Failures of the store *)

(** C8: when sqlite3 raises during the query, analyze_user raises that
    error and returns no penalty (not 0, not anything); when it raises
    during the insert or during the query, submit_review raises that error
    and renders nothing; a submission that returns has had both succeed. *)
Theorem store_errors_propagate :
  (forall (e : Exception) (clock : Clock) (user_id : string) (table : Table),
      analyze_user (Some e) clock user_id table = Raised e
      /\ forall (p : Z) (table' : Table),
           analyze_user (Some e) clock user_id table <> Returned (p, table'))
  /\ (forall (sia : string -> float) (e : Exception) (c1 c2 : Clock)
             (f2 : option Exception) (user_id review_text : string) (table : Table),
        submit_review sia (mkRequest (Some e) c1 f2 c2) user_id review_text table
          = Raised e)
  /\ (forall (sia : string -> float) (e : Exception) (c1 c2 : Clock)
             (user_id review_text : string) (table : Table),
        submit_review sia (mkRequest None c1 (Some e) c2) user_id review_text table
          = Raised e)
  /\ (forall (sia : string -> float) (req : Request)
             (user_id review_text : string) (table table' : Table) (r : Rendered),
        submit_review sia req user_id review_text table = Returned (r, table') ->
        insert_fault req = None /\ select_fault req = None).
Proof.
  repeat apply conj.
  - intros e clock user_id table. split; [reflexivity | discriminate].
  - reflexivity.
  - reflexivity.
  - intros sia req user_id review_text table table' r H.
    apply submit_review_inv in H. tauto.
Qed.

(** ** The submission's own review and the window *)

(** The insert comes before the query, so the query reads a table that holds
    the row just stored; the row is counted when its timestamp, which is
    UTC, is not before the bound, which is local time less one hour. *)
Lemma own_review_counted_in_window (c1 c2 : Clock)
    (user_id review_text : string) (table : Table) :
  let since := utc_seconds c2 + utcoffset c2 - 3600 in
  since <= utc_seconds c1 ->
  count_since user_id since (table ++ [stored_row c1 user_id review_text table])%list
  = count_since user_id since table + 1.
Proof.
  intros since Hin. rewrite count_since_app. f_equal.
  unfold count_since, stored_row. cbn [filter].
  destruct (counted_dec user_id since _) as [_ | Hno]; [reflexivity |].
  exfalso. apply Hno. split; [reflexivity | exact Hin].
Qed.

Lemma own_review_not_counted_outside_window (c1 c2 : Clock)
    (user_id review_text : string) (table : Table) :
  let since := utc_seconds c2 + utcoffset c2 - 3600 in
  utc_seconds c1 < since ->
  count_since user_id since (table ++ [stored_row c1 user_id review_text table])%list
  = count_since user_id since table.
Proof.
  intros since Hout. rewrite count_since_app.
  unfold count_since at 2. unfold stored_row. cbn [filter].
  destruct (counted_dec user_id since _) as [[_ Hin] | _].
  - cbn [Reviews.timestamp] in Hin. unfold CURRENT_TIMESTAMP in Hin. lia.
  - cbn [List.length]. lia.
Qed.

(** C7 on a host whose local zone is UTC+05:30, at 10:00:00 UTC, with an
    empty table: the submission by "u" stores its row with the UTC
    timestamp 10:00:00, the query that follows asks for rows not before the
    local 15:30:00 less one hour, so it counts 0 rows and the review just
    stored is not in the count.  The same holds for a seventh review within
    two minutes: the count is 0 and the penalty 0, where a host on UTC
    counts 7 and gives the penalty 2. *)
Theorem own_review_not_counted_on_ist_host (sia : string -> float) :
  let row := Reviews.mkRow 1 "u" "ok" 1717236000 in
  let six := reviews_by "u" 1717235900 6 in
  let seventh := Reviews.mkRow 7 "u" "ok" 1717236000 in
  insert_review None ist_host_10h "u" "ok" [] = Returned (tt, [row])
  /\ count_reviews None "u" (1717236000 + 19800 - 3600) [row] = Returned (0, [row])
  /\ analyze_user None ist_host_10h "u" [row] = Returned (0, [row])
  /\ (exists r : Rendered,
        submit_review sia (mkRequest None ist_host_10h None ist_host_10h)
                      "u" "ok" [] = Returned (r, [row])
        /\ user_penalty r = 0)
  /\ (exists r : Rendered,
        submit_review sia (mkRequest None ist_host_10h None ist_host_10h)
                      "u" "ok" six = Returned (r, (six ++ [seventh])%list)
        /\ user_penalty r = 0)
  /\ (exists r : Rendered,
        submit_review sia (mkRequest None utc_host_10h None utc_host_10h)
                      "u" "ok" six = Returned (r, (six ++ [seventh])%list)
        /\ user_penalty r = 2).
Proof.
  intros row six seventh.
  split; [reflexivity |]. split; [reflexivity |]. split; [reflexivity |].
  repeat split; rewrite submit_review_returned; cbn zeta;
    eexists; (split; [reflexivity |]); reflexivity.
Qed.

(** * Further properties of the code *)

(** ** Words *)

Lemma no_space_snoc (word : string) (c : ascii) :
  no_space word = true -> PyStr.isspace c = false ->
  no_space (word ++ String c EmptyString) = true.
Proof.
  intros Hw Hc. induction word as [| a word IH]; cbn in *.
  - rewrite Hc. reflexivity.
  - apply andb_true_iff in Hw. destruct Hw as [Ha Hw].
    rewrite Ha, (IH Hw). reflexivity.
Qed.

Lemma snoc_not_empty (word : string) (c : ascii) :
  word ++ String c EmptyString <> EmptyString.
Proof. destruct word; discriminate. Qed.

Lemma append_assoc (a b c : string) : (a ++ b) ++ c = a ++ (b ++ c).
Proof. induction a as [| x a IH]; cbn; [reflexivity | rewrite IH; reflexivity]. Qed.

Lemma append_empty_r (a : string) : a ++ EmptyString = a.
Proof. induction a as [| x a IH]; cbn; [reflexivity | rewrite IH; reflexivity]. Qed.

Lemma append_length (a b : string) :
  String.length (a ++ b) = (String.length a + String.length b)%nat.
Proof. induction a as [| x a IH]; cbn; [reflexivity | rewrite IH; reflexivity]. Qed.

(** Every word that [split_run] gives is non-empty and free of whitespace,
    when the run being read is. *)
Lemma split_run_words (s word : string) :
  no_space word = true ->
  Forall (fun w => w <> EmptyString /\ no_space w = true) (PyStr.split_run word s).
Proof.
  revert word. induction s as [| c s IH]; intros word Hw; cbn.
  - destruct word; constructor; [split; [discriminate | exact Hw] | constructor].
  - destruct (PyStr.isspace c) eqn:Hc.
    + destruct word.
      * apply IH. reflexivity.
      * constructor; [split; [discriminate | exact Hw] | apply IH; reflexivity].
    + apply IH. apply no_space_snoc; assumption.
Qed.

(** The words of [split_run], joined, are the run being read followed by
    the rest without its whitespace. *)
Lemma split_run_join (s word : string) :
  join (PyStr.split_run word s) = word ++ without_space s.
Proof.
  revert word. induction s as [| c s IH]; intros word; cbn.
  - destruct word; cbn; [reflexivity | rewrite !append_empty_r; reflexivity].
  - destruct (PyStr.isspace c) eqn:Hc.
    + destruct word.
      * rewrite IH. reflexivity.
      * cbn. rewrite IH. reflexivity.
    + rewrite IH, append_assoc. reflexivity.
Qed.

(** Cutting at a whitespace character cuts the list of words. *)
Lemma split_run_at_space (s1 s2 word : string) (c : ascii) :
  PyStr.isspace c = true ->
  PyStr.split_run word (s1 ++ String c s2)
  = (PyStr.split_run word s1 ++ PyStr.split_run EmptyString s2)%list.
Proof.
  intros Hc. revert word. induction s1 as [| a s1 IH]; intros word; cbn.
  - rewrite Hc. destruct word; reflexivity.
  - destruct (PyStr.isspace a).
    + destruct word; cbn; rewrite IH; reflexivity.
    + apply IH.
Qed.

Lemma without_space_empty_iff (s : string) :
  without_space s = EmptyString <-> only_space s = true.
Proof.
  induction s as [| c s IH]; cbn.
  - tauto.
  - destruct (PyStr.isspace c); cbn; [exact IH | split; discriminate].
Qed.

Lemma without_space_length (s : string) :
  (String.length (without_space s) <= String.length s)%nat.
Proof.
  induction s as [| c s IH]; cbn; [lia |].
  destruct (PyStr.isspace c); cbn; lia.
Qed.

Lemma join_length_words (l : list string) :
  Forall (fun w => w <> EmptyString /\ no_space w = true) l ->
  (List.length l <= String.length (join l))%nat.
Proof.
  unfold join. induction 1 as [| w l [Hw _] _ IH]; cbn [fold_right List.length]; [lia |].
  rewrite append_length. destruct w; [contradiction | cbn [String.length]; lia].
Qed.

(** Whitespace beyond ASCII: a text of one no-break space has no word, the
    next-line control and the no-break space separate words as the space
    does, and an accented capital is lower-cased. *)
Example split_latin1_whitespace :
  PyStr.split (String "160"%char EmptyString) = []
  /\ PyStr.split ("good" ++ String "160"%char ("value" ++ String "133"%char "ok"))
     = ["good"; "value"; "ok"]
  /\ PyStr.lower (String "201"%char "T" ++ String "215"%char EmptyString)
     = String "233"%char "t" ++ String "215"%char EmptyString.
Proof. repeat split; reflexivity. Qed.

(** X1: the word_count of a text is 0 exactly when the text has only
    whitespace characters (the empty text included). *)
Theorem word_count_zero_iff_only_space (sia : string -> float) (text : string) :
  word_count (analyze_text sia text) = 0 <-> only_space text = true.
Proof.
  cbn [analyze_text word_count]. unfold PyStr.split.
  pose proof (split_run_join text EmptyString) as Hjoin.
  pose proof (split_run_words text EmptyString eq_refl) as Hwords.
  cbn [append] in Hjoin.
  rewrite <- without_space_empty_iff, <- Hjoin.
  destruct (PyStr.split_run EmptyString text) as [| w l]; cbn.
  - tauto.
  - split; [lia |].
    inversion Hwords as [| ? ? [Hw _] _]. subst.
    destruct w; [contradiction | discriminate].
Qed.

(** X2: a whitespace character between two texts keeps their words apart
    and adds none: the word_count of the whole is the sum of the two. *)
Theorem word_count_splits_at_space (sia : string -> float)
    (text1 text2 : string) (c : ascii) :
  PyStr.isspace c = true ->
  word_count (analyze_text sia (text1 ++ String c text2))
  = word_count (analyze_text sia text1) + word_count (analyze_text sia text2).
Proof.
  intros Hc. cbn [analyze_text word_count]. unfold PyStr.split.
  rewrite (split_run_at_space _ _ _ _ Hc), length_app. lia.
Qed.

Lemma word_count_splits_at_space_witness :
  PyStr.isspace " "%char = true
  /\ word_count (analyze_text (fun _ => 0%float) ("  good" ++ String " " "value "))
     = word_count (analyze_text (fun _ => 0%float) "  good")
       + word_count (analyze_text (fun _ => 0%float) "value ").
Proof.
  split; [reflexivity |].
  apply (word_count_splits_at_space (fun _ => 0%float) "  good" "value " " "%char).
  reflexivity.
Defined.

(** ** Exclamation marks *)

Lemma count_scan_char (c : ascii) (s : string) :
  PyStr.count_scan (String c EmptyString) s 0 = char_count c s.
Proof.
  induction s as [| a s IH]; cbn [PyStr.count_scan char_count]; [reflexivity |].
  cbn [PyStr.startswith String.length Nat.sub]. rewrite IH.
  rewrite andb_true_r, Ascii.eqb_sym.
  destruct (Ascii.eqb a c); reflexivity.
Qed.

Lemma char_count_length (c : ascii) (s : string) :
  (char_count c s <= String.length s)%nat.
Proof.
  induction s as [| a s IH]; cbn; [lia |].
  destruct (Ascii.eqb a c); lia.
Qed.

(** ** Phrases *)

Lemma startswith_iff (sub s : string) :
  PyStr.startswith sub s = true <-> exists after : string, s = sub ++ after.
Proof.
  revert s. induction sub as [| a sub IH]; intros s; cbn.
  - split; [exists s; reflexivity | reflexivity].
  - destruct s as [| b s].
    + split; [discriminate | intros [after H]; discriminate H].
    + rewrite andb_true_iff, IH, Ascii.eqb_eq. split.
      * intros [-> [after ->]]. exists after. reflexivity.
      * intros [after H]. injection H as -> ->. split; [reflexivity | exists after; reflexivity].
Qed.

Lemma startswith_length (sub s : string) :
  PyStr.startswith sub s = true -> (String.length sub <= String.length s)%nat.
Proof.
  intros H. apply startswith_iff in H. destruct H as [after ->].
  rewrite append_length. lia.
Qed.

(** The scan finds an occurrence exactly when there is one. *)
Lemma count_scan_pos_iff (sub s : string) :
  sub <> EmptyString ->
  (0 < PyStr.count_scan sub s 0)%nat <-> occurs sub s.
Proof.
  intros Hsub. split.
  - induction s as [| c s IH]; cbn [PyStr.count_scan]; [lia |].
    destruct (PyStr.startswith sub (String c s)) eqn:Hstart.
    + intros _. apply startswith_iff in Hstart. destruct Hstart as [after ->].
      exists EmptyString, after. reflexivity.
    + intros H. destruct (IH H) as [before [after ->]].
      exists (String c before), after. reflexivity.
  - intros [before [after ->]].
    induction before as [| c before IH].
    + cbn [append]. destruct sub as [| a sub]; [contradiction |].
      cbn [append PyStr.count_scan].
      replace (PyStr.startswith (String a sub) (String a (sub ++ after))) with true.
      * lia.
      * symmetry. apply startswith_iff. exists after. reflexivity.
    + cbn [append PyStr.count_scan].
      destruct (PyStr.startswith sub _); [lia | exact IH].
Qed.

(** Occurrences do not overlap: together they fit in what is left to scan. *)
Lemma count_scan_fits (sub s : string) (skip : nat) :
  (PyStr.count_scan sub s skip * String.length sub <= String.length s - skip)%nat.
Proof.
  revert skip. induction s as [| c s IH]; intros skip; cbn [PyStr.count_scan].
  - cbn. lia.
  - destruct skip as [| k].
    + destruct (PyStr.startswith sub (String c s)) eqn:Hstart.
      * apply startswith_length in Hstart. cbn [String.length] in *.
        specialize (IH (String.length sub - 1)%nat). nia.
      * specialize (IH 0%nat). cbn [String.length]. lia.
    + specialize (IH k). cbn [String.length]. lia.
Qed.

Lemma lower_length (s : string) : String.length (PyStr.lower s) = String.length s.
Proof. induction s as [| c s IH]; cbn; [reflexivity | rewrite IH; reflexivity]. Qed.

(** What [analyze_text] adds up: the four counts, in the order of the list. *)
Lemma generic_count_four (s : string) :
  builtins.sum (map (fun phrase => PyStr.count s phrase) generic_keywords)
  = PyStr.count s "best product ever" + PyStr.count s "highly recommend"
    + PyStr.count s "excellent" + PyStr.count s "love it".
Proof. unfold builtins.sum, generic_keywords. cbn [map fold_left]. lia. Qed.

Lemma count_pos_iff (s sub : string) :
  sub <> EmptyString -> 0 < PyStr.count s sub <-> occurs sub s.
Proof.
  intros Hsub. rewrite <- (count_scan_pos_iff sub s Hsub).
  unfold PyStr.count. destruct sub; [contradiction | lia].
Qed.

Lemma count_fits (s sub : string) :
  sub <> EmptyString ->
  PyStr.count s sub * Z.of_nat (String.length sub) <= Z.of_nat (String.length s).
Proof.
  intros Hsub. pose proof (count_scan_fits sub s 0) as H.
  unfold PyStr.count. destruct sub; [contradiction | nia].
Qed.

(** X3: the exclamation_count is the number of characters of the text that
    are '!'. *)
Theorem exclamation_count_is_char_count (sia : string -> float) (text : string) :
  exclamation_count (analyze_text sia text)
  = Z.of_nat (char_count "!"%char text).
Proof.
  cbn [analyze_text exclamation_count]. unfold PyStr.count.
  rewrite count_scan_char. reflexivity.
Qed.

(** X4: the generic_phrase_count is above 0, so that the scorer takes it
    off, exactly when one of the four phrases is found somewhere in the
    lower-cased text, inside a longer word or not. *)
Theorem generic_phrase_count_pos_iff (sia : string -> float) (text : string) :
  0 < generic_phrase_count (analyze_text sia text)
  <-> exists phrase : string,
        In phrase generic_keywords /\ occurs phrase (PyStr.lower text).
Proof.
  cbn [analyze_text generic_phrase_count]. rewrite generic_count_four.
  set (s := PyStr.lower text).
  assert (H1 := count_pos_iff s "best product ever" ltac:(discriminate)).
  assert (H2 := count_pos_iff s "highly recommend" ltac:(discriminate)).
  assert (H3 := count_pos_iff s "excellent" ltac:(discriminate)).
  assert (H4 := count_pos_iff s "love it" ltac:(discriminate)).
  pose proof (count_nonneg s "best product ever").
  pose proof (count_nonneg s "highly recommend").
  pose proof (count_nonneg s "excellent").
  pose proof (count_nonneg s "love it").
  split.
  - intros Hpos.
    destruct (Z.ltb_spec 0 (PyStr.count s "best product ever")) as [Hc | Hc];
      [exists "best product ever"; split; [cbn; tauto | apply H1; exact Hc] |].
    destruct (Z.ltb_spec 0 (PyStr.count s "highly recommend")) as [Hc' | Hc'];
      [exists "highly recommend"; split; [cbn; tauto | apply H2; exact Hc'] |].
    destruct (Z.ltb_spec 0 (PyStr.count s "excellent")) as [Hc'' | Hc''];
      [exists "excellent"; split; [cbn; tauto | apply H3; exact Hc''] |].
    exists "love it". split; [cbn; tauto | apply H4; lia].
  - intros [phrase [Hin Hocc]].
    cbn in Hin. destruct Hin as [<- | [<- | [<- | [<- | []]]]].
    + apply H1 in Hocc. lia.
    + apply H2 in Hocc. lia.
    + apply H3 in Hocc. lia.
    + apply H4 in Hocc. lia.
Qed.

(** X5: the three counts are bounded by the length of the text: at most
    len(text) exclamation marks and words, and, the shortest phrase having 7
    characters and the occurrences of one phrase not overlapping,
    7 * generic_phrase_count <= 4 * len(text). *)
Theorem signals_bounded_by_length (sia : string -> float) (text : string) :
  let a := analyze_text sia text in
  let len := Z.of_nat (String.length text) in
  exclamation_count a <= len
  /\ word_count a <= len
  /\ 7 * generic_phrase_count a <= 4 * len.
Proof.
  cbn zeta. repeat apply conj.
  - cbn [analyze_text exclamation_count]. unfold PyStr.count.
    rewrite count_scan_char. pose proof (char_count_length "!"%char text). lia.
  - cbn [analyze_text word_count]. unfold PyStr.split.
    pose proof (join_length_words _ (split_run_words text EmptyString eq_refl)) as H.
    rewrite split_run_join in H. cbn [append] in H.
    pose proof (without_space_length text). lia.
  - cbn [analyze_text generic_phrase_count]. rewrite generic_count_four.
    set (s := PyStr.lower text).
    assert (Hlen : String.length s = String.length text) by apply lower_length.
    pose proof (count_fits s "best product ever" ltac:(discriminate)) as H1.
    pose proof (count_fits s "highly recommend" ltac:(discriminate)) as H2.
    pose proof (count_fits s "excellent" ltac:(discriminate)) as H3.
    pose proof (count_fits s "love it" ltac:(discriminate)) as H4.
    pose proof (count_nonneg s "best product ever").
    pose proof (count_nonneg s "highly recommend").
    pose proof (count_nonneg s "excellent").
    pose proof (count_nonneg s "love it").
    cbn [String.length] in H1, H2, H3, H4. rewrite Hlen in *. lia.
Qed.

(** ** Letter case *)

Lemma lower_char_idempotent (c : ascii) :
  PyStr.lower_char (PyStr.lower_char c) = PyStr.lower_char c.
Proof. destruct c as [[] [] [] [] [] [] [] []]; reflexivity. Qed.

Lemma lower_char_isspace (c : ascii) :
  PyStr.isspace (PyStr.lower_char c) = PyStr.isspace c.
Proof. destruct c as [[] [] [] [] [] [] [] []]; reflexivity. Qed.

Lemma lower_char_exclamation (c : ascii) :
  Ascii.eqb (PyStr.lower_char c) "!"%char = Ascii.eqb c "!"%char.
Proof. destruct c as [[] [] [] [] [] [] [] []]; reflexivity. Qed.

Lemma lower_idempotent (s : string) : PyStr.lower (PyStr.lower s) = PyStr.lower s.
Proof.
  induction s as [| c s IH]; cbn; [reflexivity |].
  rewrite lower_char_idempotent, IH. reflexivity.
Qed.

Lemma lower_snoc (word : string) (c : ascii) :
  PyStr.lower (word ++ String c EmptyString)
  = PyStr.lower word ++ String (PyStr.lower_char c) EmptyString.
Proof. induction word as [| a word IH]; cbn; [reflexivity | rewrite IH; reflexivity]. Qed.

Lemma split_run_lower (s word : string) :
  PyStr.split_run (PyStr.lower word) (PyStr.lower s)
  = map PyStr.lower (PyStr.split_run word s).
Proof.
  revert word. induction s as [| c s IH]; intros word; cbn [PyStr.lower PyStr.split_run].
  - destruct word; reflexivity.
  - rewrite lower_char_isspace. destruct (PyStr.isspace c).
    + destruct word; cbn [PyStr.lower map]; rewrite <- (IH EmptyString); reflexivity.
    + rewrite <- lower_snoc. apply IH.
Qed.

Lemma char_count_lower_exclamation (s : string) :
  char_count "!"%char (PyStr.lower s) = char_count "!"%char s.
Proof.
  induction s as [| c s IH]; cbn [PyStr.lower char_count]; [reflexivity |].
  rewrite lower_char_exclamation, IH. reflexivity.
Qed.

(** X6: lower-casing a text changes none of its three counts, so the case
    of the letters can reach the score through the sentiment only. *)
Theorem counts_ignore_letter_case (sia : string -> float) (text : string) :
  let a := analyze_text sia text in
  let b := analyze_text sia (PyStr.lower text) in
  generic_phrase_count b = generic_phrase_count a
  /\ exclamation_count b = exclamation_count a
  /\ word_count b = word_count a.
Proof.
  cbn zeta. repeat apply conj.
  - cbn [analyze_text generic_phrase_count]. rewrite lower_idempotent. reflexivity.
  - cbn [analyze_text exclamation_count]. unfold PyStr.count.
    rewrite !count_scan_char, char_count_lower_exclamation. reflexivity.
  - cbn [analyze_text word_count]. unfold PyStr.split.
    change EmptyString with (PyStr.lower EmptyString) at 1.
    rewrite split_run_lower, length_map. reflexivity.
Qed.

(** ** The score *)

Lemma score_signals_le_10 (g e w : Z) (s : float) : score_signals g e w s <= 10.
Proof.
  unfold score_signals. rewrite !Z.gtb_ltb.
  destruct (Z.ltb_spec 0 g), (Z.ltb_spec 2 e), (w <? 5), (0.8 <? abs s)%float; lia.
Qed.

(** X7: with the sentiment fixed, more generic phrases, more exclamation
    marks or fewer words never give a higher score. *)
Theorem score_signals_monotone (g g' e e' w w' : Z) (s : float) :
  g <= g' -> e <= e' -> w' <= w ->
  score_signals g' e' w' s <= score_signals g e w s.
Proof.
  intros Hg He Hw. unfold score_signals. rewrite !Z.gtb_ltb.
  destruct (Z.ltb_spec 0 g), (Z.ltb_spec 0 g'), (Z.ltb_spec 2 e),
    (Z.ltb_spec 2 e'), (Z.ltb_spec w 5), (Z.ltb_spec w' 5),
    (0.8 <? abs s)%float; lia.
Qed.

Lemma score_signals_monotone_witness :
  (1 <= 2 /\ 3 <= 4 /\ 4 <= 6)
  /\ score_signals 2 4 4 0%float <= score_signals 1 3 6 0%float.
Proof.
  split; [lia |].
  apply (score_signals_monotone 1 2 3 4 6 4 0%float); lia.
Defined.

(** X8: a text gets the full score 10 exactly when no penalty applies: no
    generic phrase, at most 2 exclamation marks, at least 5 words and a
    sentiment that is not beyond 0.8 in magnitude. *)
Theorem full_score_iff_no_penalty (sia : string -> float) (text : string) :
  let a := analyze_text sia text in
  credibility_score a = 10
  <-> generic_phrase_count a = 0
      /\ exclamation_count a <= 2
      /\ 5 <= word_count a
      /\ (0.8 <? abs (sentiment a))%float = false.
Proof.
  cbn zeta. cbn [analyze_text credibility_score generic_phrase_count
                 exclamation_count word_count sentiment].
  pose proof (generic_count_nonneg (PyStr.lower text)) as Hg.
  set (g := builtins.sum _) in *.
  set (e := PyStr.count text "!").
  set (w := Z.of_nat _).
  unfold score_signals. rewrite !Z.gtb_ltb.
  destruct (Z.ltb_spec 0 g) as [Cg | Cg], (Z.ltb_spec 2 e) as [Ce | Ce],
    (Z.ltb_spec w 5) as [Cw | Cw], (0.8 <? abs (sia text))%float;
    (split; [intros Hs; repeat split; (lia || reflexivity || discriminate)
            | intros (Pg & Pe & Pw & Ps); (lia || discriminate)]).
Qed.

Lemma abs_opp (x : float) : abs (- x)%float = abs x.
Proof.
  apply Prim2SF_inj. rewrite !abs_spec, opp_spec.
  destruct (Prim2SF x); reflexivity.
Qed.

(** X9: the score does not depend on the sign of the sentiment: a sentiment
    and its opposite cost the same. *)
Theorem score_signals_sentiment_sign (g e w : Z) (s : float) :
  score_signals g e w (- s)%float = score_signals g e w s.
Proof. unfold score_signals. rewrite abs_opp. reflexivity. Qed.

(** ** The verdict *)

(** X10: the clamp at 1 never changes the verdict: a review is flagged
    exactly when credibility_score - user_penalty is below 6, in the
    aggregation and in what every submission renders. *)
Theorem verdict_is_difference_below_six :
  (forall c p : Z, is_fake (combine_scores c p) None = (c - p <? 6))
  /\ (forall (sia : string -> float) (c1 c2 : Clock)
             (user_id review_text : string) (table : Table),
        exists (r : Rendered) (table' : Table),
          submit_review sia (mkRequest None c1 None c2) user_id review_text table
            = Returned (r, table')
          /\ verdict r = (credibility_score (analysis r) - user_penalty r <? 6)).
Proof.
  assert (H : forall c p : Z, is_fake (combine_scores c p) None = (c - p <? 6)).
  { intros c p. unfold is_fake, combine_scores.
    destruct (Z.ltb_spec (Z.max (c - p) 1) 6), (Z.ltb_spec (c - p) 6);
      (reflexivity || lia). }
  split; [exact H |].
  intros sia c1 c2 user_id review_text table.
  rewrite submit_review_returned. cbn zeta.
  eexists. eexists. split; [reflexivity |]. cbn [verdict analysis user_penalty].
  apply H.
Qed.

(** ** The frequency penalty *)

Lemma count_since_cons (user_id : string) (since : Z) (r : Reviews.row)
    (table : Table) :
  count_since user_id since (r :: table)
  = (if counted_dec user_id since r then 1 else 0) + count_since user_id since table.
Proof.
  unfold count_since. cbn [filter].
  destruct (counted_dec user_id since r); cbn [List.length]; lia.
Qed.

Lemma count_since_nonneg (user_id : string) (since : Z) (table : Table) :
  0 <= count_since user_id since table.
Proof. unfold count_since. lia. Qed.

Lemma count_since_rows_by (user_id : string) (since : Z) (table : Table) :
  count_since user_id since (rows_by user_id table)
  = count_since user_id since table.
Proof.
  induction table as [| r table IH]; [reflexivity |].
  unfold rows_by in *. cbn [filter].
  destruct (String.eqb_spec (Reviews.user_id r) user_id) as [Hu | Hu].
  - rewrite !count_since_cons, IH. reflexivity.
  - rewrite count_since_cons, IH.
    destruct (counted_dec user_id since r) as [[Hc _] | _]; [contradiction | lia].
Qed.

Lemma count_since_le_length (user_id : string) (since : Z) (table : Table) :
  count_since user_id since table <= Z.of_nat (List.length table).
Proof.
  unfold count_since. pose proof (filter_length_le
    (fun r => if counted_dec user_id since r then true else false) table). lia.
Qed.

Lemma count_since_antitone (user_id : string) (since since' : Z) (table : Table) :
  since <= since' ->
  count_since user_id since' table <= count_since user_id since table.
Proof.
  intros Hle. induction table as [| r table IH]; [reflexivity |].
  rewrite !count_since_cons.
  destruct (counted_dec user_id since' r) as [[Hu Ht] | _],
           (counted_dec user_id since r) as [_ | Hno]; try lia.
  exfalso. apply Hno. split; [exact Hu | lia].
Qed.

(** X11: the penalty is never negative and never more than the number of
    reviews the user has in the table beyond 5, whatever the clock says: a
    user with at most 5 stored reviews gets the penalty 0. *)
Theorem analyze_user_penalty_bounds (clock : Clock) (user_id : string)
    (table : Table) :
  exists p : Z,
    analyze_user None clock user_id table = Returned (p, table)
    /\ 0 <= p <= Z.max (Z.of_nat (List.length (rows_by user_id table)) - 5) 0.
Proof.
  rewrite analyze_user_count_since. cbn zeta.
  set (since := utc_seconds clock + utcoffset clock - 3600).
  pose proof (count_since_le_length user_id since (rows_by user_id table)) as Hle.
  rewrite count_since_rows_by in Hle.
  eexists. split; [reflexivity |].
  rewrite Z.gtb_ltb.
  destruct (Z.ltb_spec 5 (count_since user_id since table)); lia.
Qed.

(** X12: the reviews of other users play no part: the penalty computed on
    the whole table is the penalty computed on the user's own rows. *)
Theorem analyze_user_own_rows_only (clock : Clock) (user_id : string)
    (table : Table) :
  exists p : Z,
    analyze_user None clock user_id table = Returned (p, table)
    /\ analyze_user None clock user_id (rows_by user_id table)
       = Returned (p, rows_by user_id table).
Proof.
  rewrite !analyze_user_count_since. cbn zeta.
  rewrite count_since_rows_by. eexists. split; reflexivity.
Qed.

(** X13: on a table that stays as it is the penalty does not grow with
    time: a later local clock gives a penalty that is at most the earlier
    one. *)
Theorem analyze_user_penalty_decays (clock clock' : Clock) (user_id : string)
    (table : Table) :
  utc_seconds clock + utcoffset clock <= utc_seconds clock' + utcoffset clock' ->
  exists p p' : Z,
    analyze_user None clock user_id table = Returned (p, table)
    /\ analyze_user None clock' user_id table = Returned (p', table)
    /\ p' <= p.
Proof.
  intros Hlater. rewrite !analyze_user_count_since. cbn zeta.
  pose proof (count_since_antitone user_id
                (utc_seconds clock + utcoffset clock - 3600)
                (utc_seconds clock' + utcoffset clock' - 3600) table
                ltac:(lia)) as Hle.
  eexists. eexists. split; [reflexivity |]. split; [reflexivity |].
  rewrite !Z.gtb_ltb.
  destruct (Z.ltb_spec 5 (count_since user_id
              (utc_seconds clock + utcoffset clock - 3600) table)),
           (Z.ltb_spec 5 (count_since user_id
              (utc_seconds clock' + utcoffset clock' - 3600) table)); lia.
Qed.

Lemma analyze_user_penalty_decays_witness :
  utc_seconds utc_host_10h + utcoffset utc_host_10h
    <= utc_seconds (mkClock 1717239600 0 0) + utcoffset (mkClock 1717239600 0 0)
  /\ exists p p' : Z,
       analyze_user None utc_host_10h "u" (reviews_by "u" 1717235900 7)
         = Returned (p, reviews_by "u" 1717235900 7)
       /\ analyze_user None (mkClock 1717239600 0 0) "u" (reviews_by "u" 1717235900 7)
          = Returned (p', reviews_by "u" 1717235900 7)
       /\ p' <= p.
Proof.
  split; [vm_compute; discriminate |].
  apply (analyze_user_penalty_decays utc_host_10h (mkClock 1717239600 0 0) "u"
           (reviews_by "u" 1717235900 7)).
  vm_compute. discriminate.
Defined.

(** ** The submission and the table *)


(** The rowid of the next row: 1 in an empty table, one more than the
    largest also when that is negative, and the random one when the largest
    rowid is in use. *)
Example next_id_cases :
  next_id [] = 1
  /\ next_id [Reviews.mkRow (-9) "u" "a" 0; Reviews.mkRow (-5) "u" "b" 0] = -4
  /\ next_id [Reviews.mkRow 3 "u" "a" 0; Reviews.mkRow max_rowid "u" "b" 0]
     = random_rowid [Reviews.mkRow 3 "u" "a" 0; Reviews.mkRow max_rowid "u" "b" 0].
Proof. repeat split; reflexivity. Qed.


(** X14: the insert followed by the query, as submit_review runs them: the
    table gets the new row at its end, and the count is the count over the
    earlier rows plus 1 when the row's UTC timestamp is not before the bound
    of the query, plus 0 when it is. *)
Theorem insert_then_count (c1 : Clock) (user_id review_text : string)
    (since : Z) (table : Table) :
  (_ <- insert_review None c1 user_id review_text ;;
   count_reviews None user_id since) table
  = Returned (count_since user_id since table
              + (if since <=? utc_seconds c1 then 1 else 0),
              (table ++ [stored_row c1 user_id review_text table])%list).
Proof.
  unfold bind. cbn [insert_review]. rewrite count_reviews_count_since.
  rewrite count_since_app, count_since_cons. do 3 f_equal.
  unfold count_since at 1. cbn [filter List.length Z.of_nat].
  destruct (counted_dec user_id since _) as [[_ Hin] | Hno],
           (Z.leb_spec since (utc_seconds c1)) as [Hle | Hlt]; try lia.
  - cbn [stored_row Reviews.timestamp] in Hin. unfold CURRENT_TIMESTAMP in Hin. lia.
  - exfalso. apply Hno. split; [reflexivity | exact Hle].
Qed.


(** X16: a user with 10 or more counted reviews, the one being submitted
    included, is flagged whatever the text says: the penalty is at least 5
    and no text scores above 10. *)
Theorem heavy_poster_is_flagged (sia : string -> float) (c1 c2 : Clock)
    (user_id review_text : string) (table : Table) :
  10 <= count_since user_id (utc_seconds c2 + utcoffset c2 - 3600)
          (table ++ [stored_row c1 user_id review_text table])%list ->
  exists (r : Rendered) (table' : Table),
    submit_review sia (mkRequest None c1 None c2) user_id review_text table
      = Returned (r, table')
    /\ 5 <= user_penalty r
    /\ verdict r = true.
Proof.
  intros Hcount. rewrite submit_review_returned. cbn zeta.
  eexists. eexists. split; [reflexivity |].
  cbn [user_penalty verdict].
  set (count := count_since _ _ _) in *.
  rewrite Z.gtb_ltb. destruct (Z.ltb_spec 5 count) as [_ | Hno]; [| lia].
  split; [lia |].
  pose proof (score_signals_le_10
                (generic_phrase_count (analyze_text sia review_text))
                (exclamation_count (analyze_text sia review_text))
                (word_count (analyze_text sia review_text))
                (sentiment (analyze_text sia review_text))) as Hmax.
  change (score_signals _ _ _ _)
    with (credibility_score (analyze_text sia review_text)) in Hmax.
  unfold is_fake, combine_scores. apply Z.ltb_lt. lia.
Qed.

End Store.

(** ** Instances with the random rowid fixed *)


Lemma heavy_poster_is_flagged_witness :
  10 <= count_since "u" (utc_seconds utc_host_10h + utcoffset utc_host_10h - 3600)
          (reviews_by "u" 1717235900 9
           ++ [stored_row (fun _ => 1) utc_host_10h "u"
                          "Works as expected, arrived on time."
                          (reviews_by "u" 1717235900 9)])%list
  /\ exists (r : Rendered) (table' : Table),
       submit_review (fun _ => 1) (fun _ => 0%float)
                     (mkRequest None utc_host_10h None utc_host_10h)
                     "u" "Works as expected, arrived on time."
                     (reviews_by "u" 1717235900 9)
         = Returned (r, table')
       /\ 5 <= user_penalty r
       /\ verdict r = true.
Proof.
  split; [vm_compute; discriminate |].
  apply (heavy_poster_is_flagged (fun _ => 1) (fun _ => 0%float)
           utc_host_10h utc_host_10h "u"
           "Works as expected, arrived on time." (reviews_by "u" 1717235900 9)).
  vm_compute. discriminate.
Defined.
